(** * smgo.Parse: the declaration-tree builder of SemanticMergeGO

    A shallow embedding of [smgo/parser.go]: the entry function [Parse], the
    AST visitor [fileVisitor.Visit] and the two node constructors
    [createFile] and [createFunc], together with the small part of the Go
    libraries they call ([ioutil.ReadAll], [strings.ToUpper], [ast.Walk],
    [token.FileSet.Position]).

    Conventions of the embedding:
    - a Go [int] and a [token.Pos] are a [Z]; a Go [string] is a [string]
      (a sequence of bytes); a [[]byte] is a [list byte];
    - a pointer that may be nil is an [option]; a slice is a [list], the nil
      slice being [[]];
    - code that mutates through a pointer receiver returns the new state;
    - a run-time panic is the [Panic] outcome of the [run] monad. *)

From Stdlib Require Import ZArith List String Ascii Bool Lia.
From Stdlib.Strings Require Import Byte.
Import ListNotations.

Local Open Scope string_scope.
Local Open Scope list_scope.
Local Open Scope Z_scope.

Set Implicit Arguments.
Set Warnings "-register-all".

(* ================================================================== *)
(** ** Outcomes: a returned value or a run-time panic *)

Inductive run (A : Type) : Type :=
| Ret (a : A)
| Panic (why : string).

Arguments Ret {A} a.
Arguments Panic {A} why.

Definition bind {A B : Type} (m : run A) (k : A -> run B) : run B :=
  match m with
  | Ret a => k a
  | Panic why => Panic why
  end.

Notation "x <- m ;; k" := (bind m (fun x => k))
  (at level 61, m at next level, right associativity).
Notation "' pat <- m ;; k" := (bind m (fun x => match x with pat => k end))
  (at level 61, pat pattern, m at next level, right associativity).

(* ================================================================== *)
(** ** Package [go/token]: positions *)

Module token.

(** [token.Pos]: a compact position, [NoPos] being 0. *)
Definition Pos := Z.
Definition NoPos : Pos := 0.

(** [token.Position]: what [FileSet.Position] resolves a [Pos] to. Line
    and column count from 1; the offset counts bytes from 0. *)
Record Position : Type := mkPosition {
  Filename : string;
  Offset : Z;
  Line : Z;
  Column : Z
}.

(** [*token.FileSet], seen through the one method the code calls on it:
    the lookup that the native parser fills in while it parses. *)
Record FileSet : Type := mkFileSet {
  Position_ : Pos -> Position
}.

End token.

(* ================================================================== *)
(** ** Errors

    The error values that can flow through [Parse]: the two constructors of
    [github.com/pkg/errors] the file uses, the error of the native parser
    and whatever error the reader reports. *)

Inductive error : Type :=
| errors_New (message : string)
| errors_Wrap (cause : error) (message : string)
| scanner_ErrorList (first : token.Position) (text : string)
| reader_error (text : string).

(** [err.Error()]. A wrapped error prints its message, a colon and its
    cause; the native parser's error prints its diagnostic text. *)
Fixpoint Error (e : error) : string :=
  match e with
  | errors_New m => m
  | errors_Wrap c m => (m ++ ": " ++ Error c)%string
  | scanner_ErrorList _ text => text
  | reader_error text => text
  end.

(** Where the native parser's error points: the position of the first
    entry of its list. Other errors carry no position. *)
Definition error_position (e : error) : option token.Position :=
  match e with
  | scanner_ErrorList p _ => Some p
  | _ => None
  end.

(* ================================================================== *)
(** ** [strings.ToUpper] *)

Module strings.

(** [c < utf8.RuneSelf] *)
Definition below_RuneSelf (c : ascii) : bool := (nat_of_ascii c <? 128)%nat.

Definition is_lower (c : ascii) : bool :=
  ((97 <=? nat_of_ascii c) && (nat_of_ascii c <=? 122))%nat.

Fixpoint isASCII (s : string) : bool :=
  match s with
  | EmptyString => true
  | String c s' => below_RuneSelf c && isASCII s'
  end.

(** [c -= 'a' - 'A'] for a lower-case letter, [c] otherwise. *)
Definition upper_byte (c : ascii) : ascii :=
  if is_lower c then ascii_of_nat (nat_of_ascii c - 32) else c.

Fixpoint map_bytes (f : ascii -> ascii) (s : string) : string :=
  match s with
  | EmptyString => EmptyString
  | String c s' => String (f c) (map_bytes f s')
  end.

Section ToUpper.

(** [strings.Map(unicode.ToUpper, s)], the path taken for a string with
    a byte outside ASCII; its Unicode tables are not modelled. *)
Variable Map_unicode_ToUpper : string -> string.

(** [strings.ToUpper]: an ASCII-only string is upper-cased byte by
    byte, any other string goes through the Unicode mapping. *)
Definition ToUpper (s : string) : string :=
  if isASCII s then map_bytes upper_byte s else Map_unicode_ToUpper s.

End ToUpper.

End strings.

(* ================================================================== *)
(** ** [io.Reader] and [ioutil.ReadAll] *)

Module ioutil.

(** What one call of [Read] hands back: some bytes, or an error. The end
    of the list of steps is [io.EOF]. *)
Inductive ReadStep : Type :=
| Data (chunk : list byte)
| Fail (e : error).

Definition Reader := list ReadStep.

(** [ioutil.ReadAll]: reads until end of input or the first error, and
    returns what was read so far together with the error; the end of
    input is not an error. *)
Fixpoint ReadAll (r : Reader) : list byte * option error :=
  match r with
  | [] => ([], None)
  | Data chunk :: r' =>
      let '(rest, err) := ReadAll r' in (chunk ++ rest, err)
  | Fail e :: _ => ([], Some e)
  end.

End ioutil.

(* ================================================================== *)
(** ** Package [go/ast]: the native parse tree and [ast.Walk] *)

Module ast.

Import token.

(** [*ast.Ident] *)
Record Ident : Type := mkIdent {
  NamePos : Pos;
  Name : string
}.

Definition Ident_Pos (x : Ident) : Pos := NamePos x.

(** [token.Pos(int(x.NamePos) + len(x.Name))] *)
Definition Ident_End (x : Ident) : Pos :=
  NamePos x + Z.of_nat (String.length (Name x)).

(** A node of any type the visitor of this file has no case for
    (comment groups, field lists, function types, statements, specs,
    expressions): its type name (with its text, for an identifier or a
    literal), what its [Pos()] and [End()] return, and its non-nil
    children in the order [ast.Walk] goes through them. *)
Inductive Subtree : Type :=
| Sub (what : string) (from to : Pos) (children : list Subtree).

Definition Subtree_Pos (s : Subtree) : Pos :=
  match s with Sub _ from _ _ => from end.

Definition Subtree_End (s : Subtree) : Pos :=
  match s with Sub _ _ to _ => to end.

(** [*ast.FuncDecl] *)
Record FuncDecl : Type := mkFuncDecl {
  fd_Doc : option Subtree;    (* *CommentGroup *)
  fd_Recv : option Subtree;   (* *FieldList *)
  fd_Name : Ident;
  fd_Type : Subtree;          (* *FuncType; it starts at the func keyword *)
  fd_Body : option Subtree    (* *BlockStmt; it ends after the closing brace *)
}.

Definition FuncDecl_Pos (d : FuncDecl) : Pos := Subtree_Pos (fd_Type d).

Definition FuncDecl_End (d : FuncDecl) : Pos :=
  match fd_Body d with
  | Some body => Subtree_End body
  | None => Subtree_End (fd_Type d)
  end.

(** The keyword of a generic declaration, [GenDecl.Tok]. *)
Inductive Token : Type := IMPORT | CONST | TYPE | VAR.

(** The specs of a generic declaration: exactly one when the declaration
    is not parenthesized, any number between the parentheses otherwise. *)
Inductive Specs : Type :=
| Single (spec : Subtree)
| Group (Lparen : Pos) (specs : list Subtree) (Rparen : Pos).

(** [*ast.GenDecl] *)
Record GenDecl : Type := mkGenDecl {
  gd_Doc : option Subtree;
  gd_TokPos : Pos;
  gd_Tok : Token;
  gd_Specs : Specs
}.

Definition GenDecl_Pos (d : GenDecl) : Pos := gd_TokPos d.

Definition GenDecl_End (d : GenDecl) : Pos :=
  match gd_Specs d with
  | Group _ _ Rparen => Rparen + 1
  | Single spec => Subtree_End spec
  end.

(** [ast.Decl] *)
Inductive Decl : Type :=
| FuncDecl_ (d : FuncDecl)
| GenDecl_ (d : GenDecl)
| BadDecl_ (From To : Pos).

Definition Decl_End (d : Decl) : Pos :=
  match d with
  | FuncDecl_ d => FuncDecl_End d
  | GenDecl_ d => GenDecl_End d
  | BadDecl_ _ To => To
  end.

(** [*ast.File]. The comment list of the file is left out: [ast.Walk]
    does not go through it. *)
Record File : Type := mkFile {
  Doc : option Subtree;
  Package : Pos;
  f_Name : Ident;
  Decls : list Decl
}.

Definition File_Pos (f : File) : Pos := Package f.

(** The end of the last declaration, or of the package name when the
    file declares nothing. *)
Definition File_End (f : File) : Pos :=
  match rev (Decls f) with
  | last :: _ => Decl_End last
  | [] => Ident_End (f_Name f)
  end.

(** [ast.Node], as the type switch of a visitor sees it. *)
Inductive Node : Type :=
| N_File (n : File)
| N_FuncDecl (n : FuncDecl)
| N_GenDecl (n : GenDecl)
| N_BadDecl (From To : Pos)
| N_Ident (n : Ident)
| N_Other (n : Subtree).

(** A declaration as the [ast.Node] a visitor is handed. *)
Definition node_of_Decl (d : Decl) : Node :=
  match d with
  | FuncDecl_ d => N_FuncDecl d
  | GenDecl_ d => N_GenDecl d
  | BadDecl_ From To => N_BadDecl From To
  end.

Section Walk.

(** The visitor: its state, and its [Visit] method, which is handed a
    node or nil and returns the new state and whether the visitor it
    returned is non-nil. *)
Variable V : Type.
Variable Visit : V -> option Node -> run (V * bool).

(** The frame of [ast.Walk]:
    [if v = v.Visit(node); v == nil { return }], then the children,
    then [v.Visit(nil)]. *)
Definition visiting (node : Node) (children : V -> run V) (v : V)
  : run V :=
  '(v1, w) <- Visit v (Some node) ;;
  if w : bool then
    v2 <- children v1 ;;
    '(v3, _) <- Visit v2 None ;;
    Ret v3
  else Ret v1.

Fixpoint Walk_Subtree (s : Subtree) (v : V) {struct s} : run V :=
  visiting (N_Other s)
    (match s with
     | Sub _ _ _ children =>
         (fix walkList (l : list Subtree) (v : V) {struct l} : run V :=
            match l with
            | [] => Ret v
            | c :: l' => v' <- Walk_Subtree c v ;; walkList l' v'
            end) children
     end) v.

Definition Walk_opt (s : option Subtree) (v : V) : run V :=
  match s with
  | Some s => Walk_Subtree s v
  | None => Ret v
  end.

Fixpoint walkList (l : list Subtree) (v : V) : run V :=
  match l with
  | [] => Ret v
  | c :: l' => v' <- Walk_Subtree c v ;; walkList l' v'
  end.

Definition Walk_Ident (x : Ident) (v : V) : run V :=
  visiting (N_Ident x) (fun v => Ret v) v.

Definition Walk_FuncDecl (d : FuncDecl) (v : V) : run V :=
  visiting (N_FuncDecl d)
    (fun v =>
       v <- Walk_opt (fd_Doc d) v ;;
       v <- Walk_opt (fd_Recv d) v ;;
       v <- Walk_Ident (fd_Name d) v ;;
       v <- Walk_Subtree (fd_Type d) v ;;
       Walk_opt (fd_Body d) v) v.

Definition Walk_GenDecl (d : GenDecl) (v : V) : run V :=
  visiting (N_GenDecl d)
    (fun v =>
       v <- Walk_opt (gd_Doc d) v ;;
       match gd_Specs d with
       | Single spec => Walk_Subtree spec v
       | Group _ specs _ => walkList specs v
       end) v.

Definition Walk_Decl (d : Decl) (v : V) : run V :=
  match d with
  | FuncDecl_ d => Walk_FuncDecl d v
  | GenDecl_ d => Walk_GenDecl d v
  | BadDecl_ From To => visiting (N_BadDecl From To) (fun v => Ret v) v
  end.

Fixpoint walkDeclList (l : list Decl) (v : V) : run V :=
  match l with
  | [] => Ret v
  | d :: l' => v' <- Walk_Decl d v ;; walkDeclList l' v'
  end.

(** [ast.Walk(v, f)] for a [*ast.File]: the doc comment, the package
    name, the declarations. *)
Definition Walk (f : File) (v : V) : run V :=
  visiting (N_File f)
    (fun v =>
       v <- Walk_opt (Doc f) v ;;
       v <- Walk_Ident (f_Name f) v ;;
       walkDeclList (Decls f) v) v.

End Walk.

End ast.

(* ================================================================== *)
(** ** Package [smgo]: the declarations tree *)

Module smgo.

Import token ioutil.

(** Modelled from the spec: the declaration of type [Location] is not in
    parser.go; its fields are the spec's (line, column), in the order
    the literal [Location{1, 0}] of [Parse] fills them. *)
Record Location : Type := mkLocation {
  loc_Line : Z;
  loc_Column : Z
}.

(** Modelled from the spec: the declaration of type [LocationSpan] is not
    in parser.go; fields [Start] and [End] as its literals name them. *)
Record LocationSpan : Type := mkLocationSpan {
  ls_Start : Location;
  ls_End : Location
}.

(** Modelled from the spec: the declaration of type [RuneSpan] is not in
    parser.go; fields [Start] and [End] as its literals name them. *)
Record RuneSpan : Type := mkRuneSpan {
  rs_Start : Z;
  rs_End : Z
}.

(** Modelled from the spec: the kinds of [Node]; parser.go names
    [PackageNode] and [FunctionNode], its test the other three. *)
Inductive NodeType : Type :=
| PackageNode | FunctionNode | ConstNode | ImportNode | FieldNode.

(** Modelled from the spec: the declaration of type [Node] is not in
    parser.go; fields as the literals of [createFile] and [createFunc]
    name them. *)
Record Node : Type := mkNode {
  n_Type : NodeType;
  n_Name : string;
  n_LocationSpan : LocationSpan;
  n_Span : RuneSpan
}.

(** Modelled from the spec: the kinds of [Container]. *)
Inductive ContainerType : Type := StructContainer | InterfaceContainer.

(** Modelled from the spec: the declaration of type [Container] is not
    in parser.go; fields as the spec's data model lists them. *)
Inductive Container : Type := mkContainer {
  c_Type : ContainerType;
  c_Name : string;
  c_LocationSpan : LocationSpan;
  c_HeaderSpan : RuneSpan;
  c_FooterSpan : RuneSpan;
  c_Containers : list Container;
  c_Nodes : list Node
}.

(** Modelled from the spec: the declaration of type [ParsingError] is
    not in parser.go; fields as the literal of [Parse] names them. *)
Record ParsingError : Type := mkParsingError {
  pe_Location : Location;
  pe_Message : string
}.

(** Modelled from the spec: the declaration of type [File] is not in
    parser.go; fields as the literals of [Parse] and [createFile] name
    them. A field a literal leaves out is the nil slice. *)
Record File : Type := mkFile {
  LocationSpan_ : LocationSpan;
  FooterSpan : RuneSpan;
  Containers : list Container;
  Nodes : list Node;
  ParsingErrors : list ParsingError
}.

(** Modelled from the spec: the kinds of [block]; parser.go names
    [nodeBlock]. *)
Inductive blockType : Type := nodeBlock | containerBlock.

(** A [*Node] held by a block is the pointer stored in the [Nodes] slice
    of the File: it is the index of that node in the slice, so that what
    is written through the block is written to the File's node. No block
    of this file points to a Container. *)
Definition NodePtr := nat.
Definition ContainerPtr := nat.

(** Modelled from the spec: the declaration of type [block] is not in
    parser.go; fields as the literals of [Visit] name them. *)
Record block : Type := mkBlock {
  b_Type : blockType;
  b_Node : option NodePtr;
  b_Container : option ContainerPtr
}.

Definition ErrUnsupportedEncoding : error :=
  errors_New "Unsupported encoding".

(** [fset.Position(p)] *)
Definition Position (fset : FileSet) (p : Pos) : token.Position :=
  Position_ fset p.

Definition createFile (fset : FileSet) (n : ast.File) : File :=
  {| LocationSpan_ :=
       {| ls_Start :=
            {| loc_Line := Line (Position fset (ast.File_Pos n));
               loc_Column := Column (Position fset (ast.File_Pos n)) |};
          ls_End :=
            {| loc_Line := Line (Position fset (ast.File_End n));
               loc_Column := Column (Position fset (ast.File_End n)) |} |};
     FooterSpan := {| rs_Start := 0; rs_End := -1 |};
     Containers := [];
     Nodes :=
       [ {| n_Type := PackageNode;
            n_Name := ast.Name (ast.f_Name n);
            n_LocationSpan :=
              {| ls_Start :=
                   {| loc_Line := Line (Position fset (ast.Package n));
                      loc_Column := Column (Position fset (ast.Package n)) |};
                 ls_End :=
                   {| loc_Line :=
                        Line (Position fset (ast.Ident_Pos (ast.f_Name n)));
                      loc_Column :=
                        Column (Position fset (ast.Ident_End (ast.f_Name n)))
                   |} |};
            n_Span :=
              {| rs_Start := Offset (Position fset (ast.Package n));
                 rs_End :=
                   Offset (Position fset (ast.Ident_End (ast.f_Name n))) |}
         |} ];
     ParsingErrors := [] |}.

Definition createFunc (fset : FileSet) (n : ast.FuncDecl) : Node :=
  {| n_Type := FunctionNode;
     n_Name := ast.Name (ast.fd_Name n);
     n_LocationSpan :=
       {| ls_Start :=
            {| loc_Line := Line (Position fset (ast.FuncDecl_Pos n));
               loc_Column := Column (Position fset (ast.FuncDecl_Pos n)) |};
          ls_End :=
            {| loc_Line := Line (Position fset (ast.FuncDecl_End n));
               loc_Column := Column (Position fset (ast.FuncDecl_End n)) |}
       |};
     n_Span :=
       {| rs_Start := Offset (Position fset (ast.FuncDecl_Pos n));
          rs_End := Offset (Position fset (ast.FuncDecl_End n)) |} |}.

Record fileVisitor : Type := mkFileVisitor {
  FileSet_ : FileSet;
  File_ : option File;
  Blocks : list block
}.

(** [v.File.Nodes = append(v.File.Nodes, node)] *)
Definition append_Node (f : File) (node : Node) : File :=
  {| LocationSpan_ := LocationSpan_ f;
     FooterSpan := FooterSpan f;
     Containers := Containers f;
     Nodes := Nodes f ++ [node];
     ParsingErrors := ParsingErrors f |}.

(** [fileVisitor.Visit]. The result is the visitor after the call and
    whether the method returned [v] (true) or nil (false). *)
Definition Visit (v : fileVisitor) (node : option ast.Node)
  : run (fileVisitor * bool) :=
  match node with
  | Some (ast.N_File n) =>
      let file := createFile (FileSet_ v) n in
      match nth_error (Nodes file) 0 with
      | None => Panic "index out of range"
      | Some _ =>
          Ret ({| FileSet_ := FileSet_ v;
                  File_ := Some file;
                  Blocks := Blocks v ++
                    [ {| b_Type := nodeBlock;
                         b_Node := Some 0%nat;
                         b_Container := None |} ] |},
               true)
      end
  | Some (ast.N_FuncDecl n) =>
      let funcNode := createFunc (FileSet_ v) n in
      match File_ v with
      | None => Panic "nil pointer dereference"
      | Some file =>
          Ret ({| FileSet_ := FileSet_ v;
                  File_ := Some (append_Node file funcNode);
                  Blocks := Blocks v ++
                    [ {| b_Type := nodeBlock;
                         b_Node := Some (List.length (Nodes file));
                         b_Container := None |} ] |},
               false)
      end
  | _ => Ret (v, false)
  end.

(** What [parser.ParseFile] returns. When its error is nil the tree is
    there; when it is not, the tree may be partial or nil, and [Parse]
    does not look at it. *)
Inductive ParseResult : Type :=
| ParseOk (srcAST : ast.File)
| ParseErr (partial : option ast.File) (err : error).

Section Parse.

(** The Unicode path of [strings.ToUpper]. *)
Variable Map_unicode_ToUpper : string -> string.

(** [parser.ParseFile(fset, "", srcBytes, parser.ParseComments)] on a
    new file set: the file set it has filled and its result. *)
Variable ParseFile : list byte -> FileSet * ParseResult.

(** [fixBlockBoundaries(file, blocks, src)] is not in parser.go: the
    File as it leaves after the call, and the error returned. *)
Variable fixBlockBoundaries :
  File -> list block -> list byte -> File * option error.

Definition Parse (src : Reader) (encoding : string)
  : run (option File * option error) :=
  let '(srcBytes, err) := ReadAll src in
  match err with
  | Some err => Ret (None, Some (errors_Wrap err "Error reading src"))
  | None =>
      let encoding := strings.ToUpper Map_unicode_ToUpper encoding in
      if negb (encoding =? "UTF-8")%string then
        Ret (None, Some ErrUnsupportedEncoding)
      else
        let '(fset, parsed) := ParseFile srcBytes in
        match parsed with
        | ParseErr _ err =>
            let file :=
              {| LocationSpan_ :=
                   {| ls_Start := {| loc_Line := 1; loc_Column := 0 |};
                      ls_End := {| loc_Line := 1; loc_Column := 0 |} |};
                 FooterSpan := {| rs_Start := 0; rs_End := -1 |};
                 Containers := [];
                 Nodes := [];
                 ParsingErrors :=
                   [ {| pe_Location :=
                          {| loc_Line := 1; loc_Column := 0 |};
                        pe_Message := Error err |} ] |} in
            Ret (Some file, None)
        | ParseOk srcAST =>
            fv <- ast.Walk Visit srcAST
                    {| FileSet_ := fset; File_ := None; Blocks := [] |} ;;
            match File_ fv with
            | None => Panic "nil pointer dereference"
            | Some file =>
                let '(file, err) :=
                  fixBlockBoundaries file (Blocks fv) srcBytes in
                match err with
                | Some err =>
                    Ret (None,
                         Some (errors_Wrap err
                                 "Error reading fixing boundaries"))
                | None => Ret (Some file, None)
                end
            end
        end
  end.

End Parse.

End smgo.

(* ================================================================== *)
(** ** Sample sources

    Four small sources with the trees and the error the native parser
    produces for them, written out by hand, and stand-ins for the
    collaborators of [Parse] that are outside parser.go. They serve the
    examples: no general statement below depends on them. *)

Module samples.

Import token ast.

Definition nl : string := String "010" "".
Definition tab : string := String "009" "".

(** The file set of a source without line directives, added at base 1:
    the offset of [p] is [p - 1], its line is one more than the number of
    newlines before it, its column counts from 1 on its line. *)
Fixpoint line_column (src : list byte) (n : nat) (line column : Z)
  : Z * Z :=
  match n, src with
  | S n', b :: src' =>
      if Byte.eqb b "010"%byte
      then line_column src' n' (line + 1) 1
      else line_column src' n' line (column + 1)
  | _, _ => (line, column)
  end.

Definition fileset_of (src : list byte) : FileSet :=
  {| Position_ := fun p =>
       if (1 <=? p) && (p <=? 1 + Z.of_nat (List.length src)) then
         let '(line, column) := line_column src (Z.to_nat (p - 1)) 1 1 in
         {| Filename := ""; Offset := p - 1;
            Line := line; Column := column |}
       else {| Filename := ""; Offset := 0; Line := 0; Column := 0 |} |}.

Definition simple_func_src : string :=
  "package simplefunc" ++ nl ++ nl ++
  "func Hi() {" ++ nl ++
  tab ++ "println(1)" ++ nl ++
  "}" ++ nl.

Definition Hi_decl : FuncDecl :=
  {| fd_Doc := None;
     fd_Recv := None;
     fd_Name := {| NamePos := 26; Name := "Hi" |};
     fd_Type := Sub "FuncType" 21 30 [Sub "FieldList" 28 30 []];
     fd_Body := Some
       (Sub "BlockStmt" 31 46
          [Sub "ExprStmt" 34 44
             [Sub "CallExpr" 34 44
                [Sub "Ident println" 34 41 [];
                 Sub "BasicLit 1" 42 43 []]]]) |}.

Definition simple_func_ast : File :=
  {| Doc := None;
     Package := 1;
     f_Name := {| NamePos := 9; Name := "simplefunc" |};
     Decls := [FuncDecl_ Hi_decl] |}.

Definition simple_const_src : string :=
  "package simpleconst" ++ nl ++ nl ++
  "const N = 1" ++ nl ++ nl ++
  "const M = 2" ++ nl.

Definition simple_const_ast : File :=
  {| Doc := None;
     Package := 1;
     f_Name := {| NamePos := 9; Name := "simpleconst" |};
     Decls :=
       [ GenDecl_
           {| gd_Doc := None; gd_TokPos := 22; gd_Tok := CONST;
              gd_Specs := Single
                (Sub "ValueSpec" 28 33
                   [Sub "Ident N" 28 29 []; Sub "BasicLit 1" 32 33 []]) |};
         GenDecl_
           {| gd_Doc := None; gd_TokPos := 35; gd_Tok := CONST;
              gd_Specs := Single
                (Sub "ValueSpec" 41 46
                   [Sub "Ident M" 41 42 []; Sub "BasicLit 2" 45 46 []]) |}
       ] |}.

Definition simple_struct_src : string :=
  "package simplestruct" ++ nl ++ nl ++
  "type Person struct {" ++ nl ++
  tab ++ "Name string" ++ nl ++
  "}" ++ nl ++ nl ++
  "func SayHi(p Person) {" ++ nl ++
  tab ++ "println(p.Name)" ++ nl ++
  "}" ++ nl.

Definition Person_decl : GenDecl :=
  {| gd_Doc := None; gd_TokPos := 23; gd_Tok := TYPE;
     gd_Specs := Single
       (Sub "TypeSpec" 28 58
          [Sub "Ident Person" 28 34 [];
           Sub "StructType" 35 58
             [Sub "FieldList" 42 58
                [Sub "Field" 45 56
                   [Sub "Ident Name" 45 49 [];
                    Sub "Ident string" 50 56 []]]]]) |}.

Definition SayHi_decl : FuncDecl :=
  {| fd_Doc := None;
     fd_Recv := None;
     fd_Name := {| NamePos := 65; Name := "SayHi" |};
     fd_Type :=
       Sub "FuncType" 60 80
         [Sub "FieldList" 70 80
            [Sub "Field" 71 79
               [Sub "Ident p" 71 72 []; Sub "Ident Person" 73 79 []]]];
     fd_Body := Some
       (Sub "BlockStmt" 81 101
          [Sub "ExprStmt" 84 99
             [Sub "CallExpr" 84 99
                [Sub "Ident println" 84 91 [];
                 Sub "SelectorExpr" 92 98
                   [Sub "Ident p" 92 93 []; Sub "Ident Name" 94 98 []]]]])
  |}.

Definition simple_struct_ast : File :=
  {| Doc := None;
     Package := 1;
     f_Name := {| NamePos := 9; Name := "simplestruct" |};
     Decls := [GenDecl_ Person_decl; FuncDecl_ SayHi_decl] |}.

(** A function declaration that stops after its keyword: the parser
    reports the missing name where the input ends, on line 3. *)
Definition unfinished_func_src : string :=
  "package p" ++ nl ++ nl ++ "func".

Definition unfinished_func_err : error :=
  scanner_ErrorList
    {| Filename := ""; Offset := 15; Line := 3; Column := 5 |}
    "3:5: expected 'IDENT', found 'EOF'".

(** What the parser reports for the empty input, as the test of the
    empty file records it. *)
Definition empty_err : error :=
  scanner_ErrorList
    {| Filename := ""; Offset := 0; Line := 1; Column := 1 |}
    "1:1: expected 'package', found 'EOF'".

(** A stand-in for [parser.ParseFile] that knows the sources above and
    rejects every other input. *)
Definition sample_ParseFile (src : list byte)
  : FileSet * smgo.ParseResult :=
  let text := string_of_list_byte src in
  (fileset_of src,
   if (text =? simple_func_src)%string then smgo.ParseOk simple_func_ast
   else if (text =? simple_const_src)%string
        then smgo.ParseOk simple_const_ast
   else if (text =? simple_struct_src)%string
        then smgo.ParseOk simple_struct_ast
   else if (text =? unfinished_func_src)%string
        then smgo.ParseErr None unfinished_func_err
   else smgo.ParseErr None empty_err).

(** A stand-in for [fixBlockBoundaries] that leaves the File as the
    walker built it and reports no error. *)
Definition keep_boundaries (file : smgo.File) (blocks : list smgo.block)
    (src : list byte) : smgo.File * option error :=
  (file, None).

(** A stand-in for [fixBlockBoundaries] that reports an error. *)
Definition lose_boundaries (file : smgo.File) (blocks : list smgo.block)
    (src : list byte) : smgo.File * option error :=
  (file, Some (errors_New "offset not found")).



(** A stand-in for the Unicode path of [strings.ToUpper] that leaves the
    string as it is. *)
Definition keep_case (s : string) : string := s.

Definition reader_of (text : string) : ioutil.Reader :=
  [ioutil.Data (list_byte_of_string text)].

Definition sample_Parse :=
  smgo.Parse keep_case sample_ParseFile keep_boundaries.

End samples.

(* ================================================================== *)
(** ** What the walk leaves behind, in closed form *)

Module walker.

Import token ast smgo.

(** The function declarations among the top-level declarations, in
    source order. *)
Fixpoint FuncDecls (l : list Decl) : list FuncDecl :=
  match l with
  | [] => []
  | FuncDecl_ d :: l' => d :: FuncDecls l'
  | _ :: l' => FuncDecls l'
  end.

Definition append_Nodes (f : smgo.File) (nodes : list smgo.Node)
  : smgo.File :=
  {| LocationSpan_ := LocationSpan_ f;
     FooterSpan := FooterSpan f;
     Containers := Containers f;
     Nodes := Nodes f ++ nodes;
     ParsingErrors := ParsingErrors f |}.

Definition nodeBlock_at (i : nat) : block :=
  {| b_Type := nodeBlock; b_Node := Some i; b_Container := None |}.

(** The File of the visitor once [ast.Walk] is over: the File of
    [createFile] with one Function node added per function declaration. *)
Definition walked_File (fset : FileSet) (n : ast.File) : smgo.File :=
  append_Nodes (createFile fset n)
    (map (createFunc fset) (FuncDecls (Decls n))).

(** The blocks of the visitor once [ast.Walk] is over: one per node of
    the File, each pointing to its node. *)
Definition walked_Blocks (n : ast.File) : list block :=
  map nodeBlock_at (seq 0 (1 + List.length (FuncDecls (Decls n)))).

Definition new_visitor (fset : FileSet) : fileVisitor :=
  {| FileSet_ := fset; File_ := None; Blocks := [] |}.

End walker.

(* ================================================================== *)
(** ** The vocabulary of the statements *)

Module wording.

Import strings.

Definition is_upper (c : ascii) : bool :=
  ((65 <=? nat_of_ascii c) && (nat_of_ascii c <=? 90))%nat.

Definition lower_byte (c : ascii) : ascii :=
  if is_upper c then ascii_of_nat (nat_of_ascii c + 32) else c.

(** A case-insensitive match: the two strings are equal once the ASCII
    letters of both are put in lower case. *)
Definition case_insensitive_match (s t : string) : bool :=
  (map_bytes lower_byte s =? map_bytes lower_byte t)%string.

(** The five bytes of the accepted name. *)
Definition in_UTF8 (d : ascii) : bool :=
  existsb (Ascii.eqb d) ["U"; "T"; "F"; "-"; "8"]%char.

Fixpoint all_in_UTF8 (t : string) : bool :=
  match t with
  | EmptyString => true
  | String d t' => in_UTF8 d && all_in_UTF8 t'
  end.

(** The location a parsing error would have if it followed the position
    of the native error, whose line and column already count from 1. *)
Definition location_of_error (p : token.Position) : smgo.Location :=
  {| smgo.loc_Line := token.Line p; smgo.loc_Column := token.Column p |}.

(** Whether a node is a Function node. *)
Definition is_Function (x : smgo.Node) : bool :=
  match smgo.n_Type x with
  | smgo.FunctionNode => true
  | _ => false
  end.

(** The File of a failed parse. *)
Definition unparsed_File (message : string) : smgo.File :=
  {| smgo.LocationSpan_ :=
       {| smgo.ls_Start := {| smgo.loc_Line := 1; smgo.loc_Column := 0 |};
          smgo.ls_End := {| smgo.loc_Line := 1; smgo.loc_Column := 0 |} |};
     smgo.FooterSpan := {| smgo.rs_Start := 0; smgo.rs_End := -1 |};
     smgo.Containers := [];
     smgo.Nodes := [];
     smgo.ParsingErrors :=
       [ {| smgo.pe_Location :=
              {| smgo.loc_Line := 1; smgo.loc_Column := 0 |};
            smgo.pe_Message := message |} ] |}.

End wording.

Import token ast smgo ioutil walker wording.

(* ================================================================== *)
(** ** The walk *)

Section WalkFacts.

Lemma Walk_Subtree_prunes (s : Subtree) (v : fileVisitor) :
  Walk_Subtree Visit s v = Ret v.
Proof. destruct s; reflexivity. Qed.

Lemma Walk_opt_prunes (s : option Subtree) (v : fileVisitor) :
  Walk_opt Visit s v = Ret v.
Proof. destruct s; simpl; [apply Walk_Subtree_prunes | reflexivity]. Qed.

Lemma Walk_Ident_prunes (x : Ident) (v : fileVisitor) :
  Walk_Ident Visit x v = Ret v.
Proof. reflexivity. Qed.

(** A declaration that is not a function leaves the visitor as it is. *)
Lemma Walk_GenDecl_prunes (d : GenDecl) (v : fileVisitor) :
  Walk_GenDecl Visit d v = Ret v.
Proof. reflexivity. Qed.

(** A function declaration adds its node and its block, and nothing of
    what lies below it is visited. *)
Lemma Walk_FuncDecl_appends (d : FuncDecl) (v : fileVisitor) (f : smgo.File) :
  File_ v = Some f ->
  Walk_FuncDecl Visit d v =
  Ret {| FileSet_ := FileSet_ v;
         File_ := Some (append_Node f (createFunc (FileSet_ v) d));
         Blocks := Blocks v ++ [nodeBlock_at (List.length (Nodes f))] |}.
Proof.
  intros Hf. unfold Walk_FuncDecl, visiting. simpl. rewrite Hf. reflexivity.
Qed.

Lemma append_Nodes_nil (f : smgo.File) : append_Nodes f [] = f.
Proof. destruct f; unfold append_Nodes; simpl. now rewrite app_nil_r. Qed.

Lemma append_Nodes_cons (f : smgo.File) (x : smgo.Node) (l : list smgo.Node) :
  append_Nodes (append_Node f x) l = append_Nodes f (x :: l).
Proof.
  unfold append_Nodes, append_Node; simpl. now rewrite <- app_assoc.
Qed.

Lemma walkDeclList_spec (l : list Decl) :
  forall (v : fileVisitor) (f : smgo.File),
    File_ v = Some f ->
    walkDeclList Visit l v =
    Ret {| FileSet_ := FileSet_ v;
           File_ := Some (append_Nodes f
                            (map (createFunc (FileSet_ v)) (FuncDecls l)));
           Blocks := Blocks v ++
                     map nodeBlock_at
                       (seq (List.length (Nodes f))
                            (List.length (FuncDecls l))) |}.
Proof.
  induction l as [| d l IH]; intros v f Hf.
  - simpl. rewrite append_Nodes_nil, app_nil_r.
    destruct v; simpl in *; now subst.
  - destruct d as [d | d | From To].
    + simpl walkDeclList. simpl Walk_Decl.
      rewrite (Walk_FuncDecl_appends d v Hf). simpl bind.
      erewrite IH by (simpl; reflexivity).
      simpl. rewrite append_Nodes_cons, <- app_assoc.
      rewrite length_app. simpl.
      now rewrite Nat.add_1_r.
    + simpl. now apply IH.
    + simpl. now apply IH.
Qed.

(** The whole walk of a parsed file never panics, and leaves the File and
    the blocks of the closed forms. *)
Lemma Walk_spec (fset : FileSet) (n : ast.File) :
  Walk Visit n (new_visitor fset) =
  Ret {| FileSet_ := fset;
         File_ := Some (walked_File fset n);
         Blocks := walked_Blocks n |}.
Proof.
  unfold Walk, visiting. simpl.
  rewrite Walk_opt_prunes. simpl.
  erewrite walkDeclList_spec by (simpl; reflexivity).
  reflexivity.
Qed.

End WalkFacts.

(* ================================================================== *)
(** ** The encoding gate *)

Section EncodingFacts.

Import strings.

Lemma upper_byte_hits (c d : ascii) :
  in_UTF8 d = true ->
  (upper_byte c =? d)%char = (lower_byte c =? lower_byte d)%char.
Proof.
  intros Hd.
  destruct d as [[] [] [] [] [] [] [] []]; try discriminate Hd;
    destruct c as [[] [] [] [] [] [] [] []]; reflexivity.
Qed.

Lemma lower_byte_keeps_range (c : ascii) :
  below_RuneSelf (lower_byte c) = below_RuneSelf c.
Proof. destruct c as [[] [] [] [] [] [] [] []]; reflexivity. Qed.

Lemma isASCII_lower (s : string) :
  isASCII (map_bytes lower_byte s) = isASCII s.
Proof.
  induction s as [| c s IH]; simpl; [reflexivity |].
  now rewrite lower_byte_keeps_range, IH.
Qed.

(** On ASCII input, upper-casing hits a name made of those bytes exactly
    when the input matches it up to case. *)
Lemma map_upper_hits (t : string) :
  all_in_UTF8 t = true ->
  forall s,
    (map_bytes upper_byte s =? t)%string = case_insensitive_match s t.
Proof.
  unfold case_insensitive_match.
  induction t as [| d t IH]; intros Ht s.
  - destruct s; reflexivity.
  - simpl in Ht. apply andb_true_iff in Ht as [Hd Ht].
    destruct s as [| c s]; simpl; [reflexivity |].
    rewrite (@upper_byte_hits c d Hd), (IH Ht s). reflexivity.
Qed.

Lemma non_ASCII_never_matches (s : string) :
  isASCII s = false -> case_insensitive_match s "UTF-8" = false.
Proof.
  intros Hs. unfold case_insensitive_match.
  destruct (String.eqb_spec (map_bytes lower_byte s)
              (map_bytes lower_byte "UTF-8")) as [E |]; [| reflexivity].
  rewrite <- isASCII_lower, E in Hs. discriminate Hs.
Qed.

Variable Map_unicode_ToUpper : string -> string.

(** The Unicode tables map no character outside ASCII to one of the
    bytes of the accepted name: upper-casing a string with a byte outside
    ASCII does not give "UTF-8". *)
Hypothesis Unicode_misses :
  forall s, isASCII s = false -> Map_unicode_ToUpper s <> "UTF-8".

Lemma ToUpper_hits (s : string) :
  (ToUpper Map_unicode_ToUpper s =? "UTF-8")%string =
  case_insensitive_match s "UTF-8".
Proof.
  unfold ToUpper. destruct (isASCII s) eqn:Hs.
  - now apply map_upper_hits.
  - rewrite (@non_ASCII_never_matches s Hs).
    apply String.eqb_neq. now apply Unicode_misses.
Qed.

End EncodingFacts.

(* ================================================================== *)
(** ** The entry function *)

Section ParseFacts.

Variable Map_unicode_ToUpper : string -> string.
Variable ParseFile : list byte -> FileSet * ParseResult.
Variable fixBlockBoundaries :
  smgo.File -> list block -> list byte -> smgo.File * option error.

Local Abbreviation Parse :=
  (smgo.Parse Map_unicode_ToUpper ParseFile fixBlockBoundaries).
Local Abbreviation ToUpper := (strings.ToUpper Map_unicode_ToUpper).

Lemma Parse_read_failed (r : Reader) (enc : string) (b : list byte)
    (err : error) :
  ReadAll r = (b, Some err) ->
  Parse r enc = Ret (None, Some (errors_Wrap err "Error reading src")).
Proof. intros Hr. unfold smgo.Parse. now rewrite Hr. Qed.

Lemma Parse_rejected (r : Reader) (enc : string) (b : list byte) :
  ReadAll r = (b, None) ->
  (ToUpper enc =? "UTF-8")%string = false ->
  Parse r enc = Ret (None, Some ErrUnsupportedEncoding).
Proof. intros Hr Hg. unfold smgo.Parse. now rewrite Hr, Hg. Qed.

(** Past the gate, [Parse] is the native parse followed, when it
    succeeds, by the walk and the boundary fixer. *)
Lemma Parse_accepted (r : Reader) (enc : string) (b : list byte) :
  ReadAll r = (b, None) ->
  (ToUpper enc =? "UTF-8")%string = true ->
  Parse r enc =
  match ParseFile b with
  | (_, ParseErr _ err) => Ret (Some (unparsed_File (Error err)), None)
  | (fset, ParseOk n) =>
      match fixBlockBoundaries (walked_File fset n) (walked_Blocks n) b with
      | (_, Some err) =>
          Ret (None,
               Some (errors_Wrap err "Error reading fixing boundaries"))
      | (file, None) => Ret (Some file, None)
      end
  end.
Proof.
  intros Hr Hg. unfold smgo.Parse. rewrite Hr, Hg. simpl negb. cbv iota.
  destruct (ParseFile b) as [fset [n | partial err]]; [| reflexivity].
  fold (new_visitor fset). rewrite Walk_spec. simpl.
  destruct (fixBlockBoundaries _ _ _) as [file [err |]]; reflexivity.
Qed.

Lemma UTF8_passes : (ToUpper "UTF-8" =? "UTF-8")%string = true.
Proof. reflexivity. Qed.

End ParseFacts.

(* ================================================================== *)
(** ** The walker, statement by statement *)

Lemma FuncDecls_In (d : FuncDecl) (l : list Decl) :
  In (FuncDecl_ d) l -> In d (FuncDecls l).
Proof.
  induction l as [| x l IH]; simpl; [tauto |].
  intros [E | H].
  - subst x. now left.
  - destruct x; simpl; auto.
Qed.

(** The walker has two kinds of node and no container. *)
Lemma walker_emits_Package_and_Function_only (fset : FileSet) (n : ast.File) :
  Containers (walked_File fset n) = [] /\
  forall node, In node (Nodes (walked_File fset n)) ->
               n_Type node = PackageNode \/ n_Type node = FunctionNode.
Proof.
  split; [reflexivity |].
  intros node. simpl. intros [E | H].
  - subst node. now left.
  - apply in_map_iff in H as [d [E _]]. subst node. now right.
Qed.

(** Every block of the walk points to a node of the File. *)
Lemma walked_Blocks_point_to_Nodes (fset : FileSet) (n : ast.File) :
  forall b, In b (walked_Blocks n) ->
    exists i node, b = nodeBlock_at i /\
                   nth_error (Nodes (walked_File fset n)) i = Some node.
Proof.
  intros b Hb. unfold walked_Blocks in Hb.
  apply in_map_iff in Hb as [i [E Hi]]. subst b.
  apply in_seq in Hi.
  destruct (nth_error (Nodes (walked_File fset n)) i) as [node |] eqn:Hn.
  - now exists i, node.
  - apply nth_error_None in Hn. simpl in Hn.
    rewrite length_map in Hn. lia.
Qed.

(** C6: for every parsed file, the walk ends without a panic and the first
    node of the File it leaves is the Package node: its name is the
    package identifier, and its span runs from the offset of the package
    keyword to the offset of the end of that identifier. *)
Theorem package_Node_comes_first (fset : FileSet) (n : ast.File) :
  exists file pkg rest,
    Walk Visit n (new_visitor fset) =
      Ret {| FileSet_ := fset; File_ := Some file;
             Blocks := walked_Blocks n |} /\
    Nodes file = pkg :: rest /\
    n_Type pkg = PackageNode /\
    n_Name pkg = Name (f_Name n) /\
    rs_Start (n_Span pkg) = Offset (Position fset (Package n)) /\
    rs_End (n_Span pkg) = Offset (Position fset (Ident_End (f_Name n))).
Proof.
  eexists. eexists. eexists. split; [apply Walk_spec |].
  simpl. repeat split.
Qed.

(** C7: for every parsed file and every function declaration at its top
    level, the File the walk leaves has a Function node named after the
    function whose span starts at the offset where the declaration starts
    (its func keyword) and ends at the offset where its body ends, or
    where its signature ends when it has no body. *)
Theorem function_Node_covers_declaration (fset : FileSet) (n : ast.File)
    (d : FuncDecl) :
  In (FuncDecl_ d) (Decls n) ->
  exists fv file node,
    Walk Visit n (new_visitor fset) = Ret fv /\
    File_ fv = Some file /\
    In node (Nodes file) /\
    n_Type node = FunctionNode /\
    n_Name node = Name (fd_Name d) /\
    rs_Start (n_Span node) =
      Offset (Position fset (Subtree_Pos (fd_Type d))) /\
    rs_End (n_Span node) =
      Offset (Position fset
                (match fd_Body d with
                 | Some body => Subtree_End body
                 | None => Subtree_End (fd_Type d)
                 end)).
Proof.
  intros Hd.
  eexists. exists (walked_File fset n), (createFunc fset d).
  split; [apply Walk_spec |].
  split; [reflexivity |].
  split; [| repeat split].
  simpl. right. apply in_map. now apply FuncDecls_In.
Qed.

Lemma function_Node_covers_declaration_witness :
  exists fv file node,
    Walk Visit samples.simple_func_ast
      (new_visitor
         (samples.fileset_of (list_byte_of_string samples.simple_func_src)))
      = Ret fv /\
    File_ fv = Some file /\
    In node (Nodes file) /\
    n_Type node = FunctionNode /\
    n_Name node = "Hi" /\
    rs_Start (n_Span node) = 20 /\
    rs_End (n_Span node) = 45.
Proof.
  apply (@function_Node_covers_declaration
           (samples.fileset_of (list_byte_of_string samples.simple_func_src))
           samples.simple_func_ast samples.Hi_decl).
  simpl. left. reflexivity.
Defined.

(** C3: the walk of the file with a package clause and two constant
    declarations leaves the Package node alone: no Const node is there. *)
Theorem const_declarations_get_no_Node :
  exists file pkg,
    Walk Visit samples.simple_const_ast
      (new_visitor
         (samples.fileset_of (list_byte_of_string samples.simple_const_src)))
      = Ret {| FileSet_ :=
                 samples.fileset_of
                   (list_byte_of_string samples.simple_const_src);
               File_ := Some file;
               Blocks := [nodeBlock_at 0] |} /\
    Nodes file = [pkg] /\
    n_Type pkg = PackageNode /\
    n_Name pkg = "simpleconst" /\
    n_Span pkg = {| rs_Start := 0; rs_End := 19 |}.
Proof.
  eexists. eexists. split; [apply Walk_spec |].
  simpl. repeat split.
Qed.

(** C4: the walk of the file with the struct type Person and the function
    SayHi leaves no Container and no Field node: the nodes of the File are
    the Package node and the Function node. *)
Theorem struct_type_gets_no_Container :
  exists file pkg fn,
    Walk Visit samples.simple_struct_ast
      (new_visitor
         (samples.fileset_of (list_byte_of_string samples.simple_struct_src)))
      = Ret {| FileSet_ :=
                 samples.fileset_of
                   (list_byte_of_string samples.simple_struct_src);
               File_ := Some file;
               Blocks := [nodeBlock_at 0; nodeBlock_at 1] |} /\
    Containers file = [] /\
    Nodes file = [pkg; fn] /\
    n_Type pkg = PackageNode /\ n_Name pkg = "simplestruct" /\
    n_Type fn = FunctionNode /\ n_Name fn = "SayHi" /\
    n_Span fn = {| rs_Start := 59; rs_End := 100 |}.
Proof.
  eexists. eexists. eexists. split; [apply Walk_spec |].
  simpl. repeat split.
Qed.

(* ================================================================== *)
(** ** The entry function, statement by statement *)

Section ParseClaims.

Variable Map_unicode_ToUpper : string -> string.
Variable ParseFile : list byte -> FileSet * ParseResult.
Variable fixBlockBoundaries :
  smgo.File -> list block -> list byte -> smgo.File * option error.

Local Abbreviation Parse :=
  (smgo.Parse Map_unicode_ToUpper ParseFile fixBlockBoundaries).

(** C1: when the source is read and the native parse fails, the empty
    source included, Parse with encoding "UTF-8" returns a nil error and
    a File whose location span is {1,0}-{1,0}, whose footer span is
    {0,-1}, which has no container and no node, and which holds exactly
    one parsing error. *)
Theorem syntax_error_is_reported_in_the_File (r : Reader) (b : list byte)
    (fset : FileSet) (partial : option ast.File) (err : error) :
  ReadAll r = (b, None) ->
  ParseFile b = (fset, ParseErr partial err) ->
  exists file pe,
    Parse r "UTF-8" = Ret (Some file, None) /\
    LocationSpan_ file =
      {| ls_Start := {| loc_Line := 1; loc_Column := 0 |};
         ls_End := {| loc_Line := 1; loc_Column := 0 |} |} /\
    FooterSpan file = {| rs_Start := 0; rs_End := -1 |} /\
    Containers file = [] /\
    Nodes file = [] /\
    ParsingErrors file = [pe].
Proof.
  intros Hr Hp. eexists. eexists.
  rewrite (@Parse_accepted Map_unicode_ToUpper ParseFile fixBlockBoundaries
             r "UTF-8" b Hr (@UTF8_passes Map_unicode_ToUpper)), Hp.
  repeat split.
Qed.

(** C5, as the code has it: when the source is read and the native parse
    fails, the one parsing error of the File has the fixed location
    {1,0}, wherever the native error points, and its message is the text
    of the native error. *)
Theorem ParsingError_has_fixed_location (r : Reader) (b : list byte)
    (fset : FileSet) (partial : option ast.File) (err : error) :
  ReadAll r = (b, None) ->
  ParseFile b = (fset, ParseErr partial err) ->
  exists file pe,
    Parse r "UTF-8" = Ret (Some file, None) /\
    ParsingErrors file = [pe] /\
    pe_Location pe = {| loc_Line := 1; loc_Column := 0 |} /\
    pe_Message pe = Error err.
Proof.
  intros Hr Hp. eexists. eexists.
  rewrite (@Parse_accepted Map_unicode_ToUpper ParseFile fixBlockBoundaries
             r "UTF-8" b Hr (@UTF8_passes Map_unicode_ToUpper)), Hp.
  repeat split.
Qed.

(** C8: provided the boundary fixer leaves the parsing errors of the File
    as they are, every File that Parse returns holds no parsing error
    when the native parse succeeded and exactly one when it failed. *)
Theorem ParsingErrors_only_on_failure (r : Reader) (enc : string)
    (b : list byte) (file : smgo.File) :
  (forall f blocks src f',
      fixBlockBoundaries f blocks src = (f', None) ->
      ParsingErrors f' = ParsingErrors f) ->
  ReadAll r = (b, None) ->
  Parse r enc = Ret (Some file, None) ->
  match snd (ParseFile b) with
  | ParseOk _ => ParsingErrors file = []
  | ParseErr _ _ => exists pe, ParsingErrors file = [pe]
  end.
Proof.
  intros Hfix Hr HP.
  destruct (strings.ToUpper Map_unicode_ToUpper enc =? "UTF-8")%string
    eqn:Hg.
  - rewrite (@Parse_accepted Map_unicode_ToUpper ParseFile
               fixBlockBoundaries r enc b Hr Hg) in HP.
    destruct (ParseFile b) as [fset [n | partial err]]; simpl.
    + destruct (fixBlockBoundaries _ _ _) as [f' [e |]] eqn:Hf;
        [discriminate HP |].
      injection HP as ->. now rewrite (Hfix _ _ _ _ Hf).
    + injection HP as <-. eexists. reflexivity.
  - rewrite (@Parse_rejected Map_unicode_ToUpper ParseFile
               fixBlockBoundaries r enc b Hr Hg) in HP.
    discriminate HP.
Qed.

(** C10: when reading the source fails, Parse returns a nil File and the
    read error wrapped, whatever the encoding string is; that error is
    not the unsupported-encoding error. *)
Theorem read_error_comes_before_encoding_check (r : Reader) (enc : string)
    (b : list byte) (err : error) :
  ReadAll r = (b, Some err) ->
  Parse r enc = Ret (None, Some (errors_Wrap err "Error reading src")) /\
  errors_Wrap err "Error reading src" <> ErrUnsupportedEncoding.
Proof.
  intros Hr. split; [now apply Parse_read_failed with (b := b) |].
  discriminate.
Qed.

End ParseClaims.

(** C2: when the source is read, an encoding string that does not match
    "UTF-8" up to case makes Parse return a nil File and the
    unsupported-encoding error whatever the native parser and the boundary
    fixer are, so neither is consulted; an encoding string that matches
    "UTF-8" up to case is treated as "UTF-8" itself and never gives that
    error. *)
Theorem encoding_gate (Map_unicode_ToUpper : string -> string) (r : Reader)
    (b : list byte) (enc : string) :
  (forall s, strings.isASCII s = false -> Map_unicode_ToUpper s <> "UTF-8") ->
  ReadAll r = (b, None) ->
  (case_insensitive_match enc "UTF-8" = false ->
   forall ParseFile fixBlockBoundaries,
     smgo.Parse Map_unicode_ToUpper ParseFile fixBlockBoundaries r enc =
     Ret (None, Some ErrUnsupportedEncoding)) /\
  (case_insensitive_match enc "UTF-8" = true ->
   forall ParseFile fixBlockBoundaries,
     smgo.Parse Map_unicode_ToUpper ParseFile fixBlockBoundaries r enc =
     smgo.Parse Map_unicode_ToUpper ParseFile fixBlockBoundaries r "UTF-8" /\
     smgo.Parse Map_unicode_ToUpper ParseFile fixBlockBoundaries r enc <>
     Ret (None, Some ErrUnsupportedEncoding)).
Proof.
  intros Hmiss Hr. split; intros Hm P F.
  - apply Parse_rejected with (b := b); [exact Hr |].
    now rewrite (@ToUpper_hits Map_unicode_ToUpper Hmiss enc).
  - assert (Hg : (strings.ToUpper Map_unicode_ToUpper enc =? "UTF-8")%string
                 = true)
      by now rewrite (@ToUpper_hits Map_unicode_ToUpper Hmiss enc).
    rewrite (@Parse_accepted Map_unicode_ToUpper P F r enc b Hr Hg).
    rewrite (@Parse_accepted Map_unicode_ToUpper P F r "UTF-8" b Hr
               (@UTF8_passes Map_unicode_ToUpper)).
    split; [reflexivity |].
    destruct (P b) as [fset [n | partial err]]; [| discriminate].
    destruct (F _ _ _) as [file [e |]]; discriminate.
Qed.

Lemma encoding_gate_witness :
  samples.sample_Parse (samples.reader_of samples.simple_func_src) "latin1" =
    Ret (None, Some ErrUnsupportedEncoding) /\
  samples.sample_Parse (samples.reader_of samples.simple_func_src) "utf-8" =
    samples.sample_Parse (samples.reader_of samples.simple_func_src) "UTF-8".
Proof.
  assert (Hmiss : forall s, strings.isASCII s = false ->
                            samples.keep_case s <> "UTF-8").
  { intros s Hs E. unfold samples.keep_case in E. subst s. discriminate Hs. }
  split.
  - apply (proj1 (@encoding_gate samples.keep_case
                    (samples.reader_of samples.simple_func_src)
                    (list_byte_of_string samples.simple_func_src)
                    "latin1" Hmiss eq_refl)).
    reflexivity.
  - apply (proj2 (@encoding_gate samples.keep_case
                    (samples.reader_of samples.simple_func_src)
                    (list_byte_of_string samples.simple_func_src)
                    "utf-8" Hmiss eq_refl)).
    reflexivity.
Defined.

Lemma syntax_error_is_reported_in_the_File_witness :
  exists file pe,
    samples.sample_Parse (samples.reader_of "") "UTF-8" =
      Ret (Some file, None) /\
    LocationSpan_ file =
      {| ls_Start := {| loc_Line := 1; loc_Column := 0 |};
         ls_End := {| loc_Line := 1; loc_Column := 0 |} |} /\
    FooterSpan file = {| rs_Start := 0; rs_End := -1 |} /\
    Containers file = [] /\
    Nodes file = [] /\
    ParsingErrors file = [pe].
Proof.
  apply (@syntax_error_is_reported_in_the_File samples.keep_case
           samples.sample_ParseFile samples.keep_boundaries
           (samples.reader_of "") [] (samples.fileset_of []) None
           samples.empty_err).
  - reflexivity.
  - reflexivity.
Defined.

(** C5, as stated, fails on the function declaration that stops after its
    keyword: the native error points to line 3, column 5, and the parsing
    error of the File is at {1,0}. *)
Lemma ParsingError_location_ignores_error_position :
  exists file pe p,
    snd (samples.sample_ParseFile
           (list_byte_of_string samples.unfinished_func_src)) =
      ParseErr None samples.unfinished_func_err /\
    error_position samples.unfinished_func_err = Some p /\
    token.Line p = 3 /\ token.Column p = 5 /\
    samples.sample_Parse (samples.reader_of samples.unfinished_func_src)
      "UTF-8" = Ret (Some file, None) /\
    ParsingErrors file = [pe] /\
    pe_Location pe = {| loc_Line := 1; loc_Column := 0 |} /\
    pe_Location pe <> location_of_error p.
Proof.
  eexists. eexists. eexists.
  split; [reflexivity |].
  split; [reflexivity |].
  split; [reflexivity |].
  split; [reflexivity |].
  split; [reflexivity |].
  split; [reflexivity |].
  split; [reflexivity |].
  discriminate.
Qed.

Lemma ParsingError_has_fixed_location_witness :
  exists file pe,
    samples.sample_Parse (samples.reader_of samples.unfinished_func_src)
      "UTF-8" = Ret (Some file, None) /\
    ParsingErrors file = [pe] /\
    pe_Location pe = {| loc_Line := 1; loc_Column := 0 |} /\
    pe_Message pe = "3:5: expected 'IDENT', found 'EOF'".
Proof.
  apply (@ParsingError_has_fixed_location samples.keep_case
           samples.sample_ParseFile samples.keep_boundaries
           (samples.reader_of samples.unfinished_func_src)
           (list_byte_of_string samples.unfinished_func_src)
           (samples.fileset_of
              (list_byte_of_string samples.unfinished_func_src))
           None samples.unfinished_func_err).
  - reflexivity.
  - reflexivity.
Defined.

Lemma ParsingErrors_only_on_failure_witness :
  ParsingErrors
    (walked_File
       (samples.fileset_of (list_byte_of_string samples.simple_func_src))
       samples.simple_func_ast) = [] /\
  exists pe, ParsingErrors (unparsed_File (Error samples.empty_err)) = [pe].
Proof.
  assert (Hfix : forall f blocks src f',
             samples.keep_boundaries f blocks src = (f', None) ->
             ParsingErrors f' = ParsingErrors f).
  { intros f blocks src f' E. unfold samples.keep_boundaries in E.
    injection E as <-. reflexivity. }
  split.
  - apply (@ParsingErrors_only_on_failure samples.keep_case
             samples.sample_ParseFile samples.keep_boundaries
             (samples.reader_of samples.simple_func_src) "UTF-8"
             (list_byte_of_string samples.simple_func_src)
             (walked_File
                (samples.fileset_of
                   (list_byte_of_string samples.simple_func_src))
                samples.simple_func_ast)
             Hfix eq_refl eq_refl).
  - apply (@ParsingErrors_only_on_failure samples.keep_case
             samples.sample_ParseFile samples.keep_boundaries
             (samples.reader_of "") "UTF-8" []
             (unparsed_File (Error samples.empty_err))
             Hfix eq_refl eq_refl).
Defined.

Lemma read_error_comes_before_encoding_check_witness :
  samples.sample_Parse
    [Data (list_byte_of_string "package p");
     Fail (reader_error "unexpected EOF")]
    "latin1" =
    Ret (None,
         Some (errors_Wrap (reader_error "unexpected EOF")
                 "Error reading src")) /\
  errors_Wrap (reader_error "unexpected EOF") "Error reading src" <>
    ErrUnsupportedEncoding.
Proof.
  apply (@read_error_comes_before_encoding_check samples.keep_case
           samples.sample_ParseFile samples.keep_boundaries
           [Data (list_byte_of_string "package p");
            Fail (reader_error "unexpected EOF")]
           "latin1" (list_byte_of_string "package p")
           (reader_error "unexpected EOF")).
  reflexivity.
Defined.

(* ================================================================== *)
(** ** More about the walk *)

(** X1: once the walk is over, the blocks of the visitor mirror the nodes
    of its File: there are as many blocks as nodes, and the block at index
    [i] is a node block, without a container, that points to the node at
    index [i]. *)
Theorem blocks_mirror_Nodes (fset : FileSet) (n : ast.File) :
  exists fv file,
    Walk Visit n (new_visitor fset) = Ret fv /\
    File_ fv = Some file /\
    List.length (Blocks fv) = List.length (Nodes file) /\
    forall i b,
      nth_error (Blocks fv) i = Some b ->
      b = {| b_Type := nodeBlock; b_Node := Some i; b_Container := None |} /\
      exists node, nth_error (Nodes file) i = Some node.
Proof.
  eexists. exists (walked_File fset n).
  split; [apply Walk_spec |]. split; [reflexivity |].
  assert (Hlen : List.length (walked_Blocks n) =
                 List.length (Nodes (walked_File fset n))).
  { unfold walked_Blocks. rewrite length_map, length_seq. simpl.
    now rewrite length_map. }
  split; [exact Hlen |].
  intros i b Hb. cbn [Blocks] in Hb.
  assert (Hi : (i < List.length (walked_Blocks n))%nat).
  { apply nth_error_Some. rewrite Hb. discriminate. }
  split.
  - unfold walked_Blocks in Hb, Hi.
    rewrite nth_error_map, nth_error_seq in Hb.
    rewrite length_map, length_seq in Hi.
    apply Nat.ltb_lt in Hi. rewrite Hi in Hb. simpl in Hb.
    injection Hb as <-. reflexivity.
  - rewrite Hlen in Hi. apply nth_error_Some in Hi.
    destruct (nth_error (Nodes (walked_File fset n)) i) as [node |];
      [now exists node | contradiction].
Qed.

Lemma filter_createFunc (fset : FileSet) (l : list FuncDecl) :
  filter is_Function (map (createFunc fset) l) = map (createFunc fset) l.
Proof.
  induction l as [| d l IH]; simpl; [reflexivity |]. now rewrite IH.
Qed.

(** X2: the Function nodes of the File the walk leaves are, in this order,
    the nodes [createFunc] builds for the function declarations of the
    file in source order: one per declaration, none twice, none missing. *)
Theorem Function_Nodes_follow_source_order (fset : FileSet) (n : ast.File) :
  exists fv file,
    Walk Visit n (new_visitor fset) = Ret fv /\
    File_ fv = Some file /\
    filter is_Function (Nodes file) =
      map (createFunc fset) (FuncDecls (Decls n)).
Proof.
  eexists. exists (walked_File fset n).
  split; [apply Walk_spec |]. split; [reflexivity |].
  simpl. apply filter_createFunc.
Qed.

(** X3: walking a top-level declaration is one call of [Visit] on the
    declaration itself: the visitor it returns is nil, so nothing below
    the declaration (doc comment, receiver, name, signature, body, specs)
    is ever visited, and a panic of that call is the panic of the walk. *)
Theorem declarations_are_pruned (d : Decl) (v : fileVisitor) :
  Walk_Decl Visit d v =
    (r <- Visit v (Some (node_of_Decl d)) ;; Ret (fst r)) /\
  forall v' w, Visit v (Some (node_of_Decl d)) = Ret (v', w) -> w = false.
Proof.
  split.
  - destruct d as [d | d | From To]; simpl; try reflexivity.
    unfold Walk_FuncDecl, visiting. simpl.
    destruct (File_ v); reflexivity.
  - intros v' w H. destruct d as [d | d | From To]; simpl in H.
    + destruct (File_ v); [| discriminate H]. now injection H as _ <-.
    + now injection H as _ <-.
    + now injection H as _ <-.
Qed.

(* ================================================================== *)
(** ** More about the entry function *)

Lemma upper_of_lower (c : ascii) :
  strings.upper_byte (lower_byte c) = strings.upper_byte c.
Proof. destruct c as [[] [] [] [] [] [] [] []]; reflexivity. Qed.

Lemma map_upper_of_lower (s : string) :
  strings.map_bytes strings.upper_byte (strings.map_bytes lower_byte s) =
  strings.map_bytes strings.upper_byte s.
Proof.
  induction s as [| c s IH]; simpl; [reflexivity |].
  now rewrite upper_of_lower, IH.
Qed.

Section ParseExtras.

Variable Map_unicode_ToUpper : string -> string.
Variable ParseFile : list byte -> FileSet * ParseResult.
Variable fixBlockBoundaries :
  smgo.File -> list block -> list byte -> smgo.File * option error.

Local Abbreviation Parse :=
  (smgo.Parse Map_unicode_ToUpper ParseFile fixBlockBoundaries).

(** X5: when the source is read, the encoding passes and the native parse
    succeeds, the boundary fixer is handed the File and the blocks the
    walk left and the bytes of the source, and it decides the result: the
    File as it leaves it with a nil error, or a nil File with its error
    wrapped. *)
Theorem boundary_fixer_decides (r : Reader) (enc : string) (b : list byte)
    (fset : FileSet) (n : ast.File) :
  ReadAll r = (b, None) ->
  strings.ToUpper Map_unicode_ToUpper enc = "UTF-8" ->
  ParseFile b = (fset, ParseOk n) ->
  exists fv file,
    Walk Visit n (new_visitor fset) = Ret fv /\
    File_ fv = Some file /\
    Parse r enc =
    match fixBlockBoundaries file (Blocks fv) b with
    | (_, Some err) =>
        Ret (None, Some (errors_Wrap err "Error reading fixing boundaries"))
    | (fixed, None) => Ret (Some fixed, None)
    end.
Proof.
  intros Hr Hg Hp. eexists. exists (walked_File fset n).
  split; [apply Walk_spec |]. split; [reflexivity |].
  assert (Hg' : (strings.ToUpper Map_unicode_ToUpper enc =? "UTF-8")%string
                = true) by (rewrite Hg; reflexivity).
  rewrite (@Parse_accepted Map_unicode_ToUpper ParseFile fixBlockBoundaries
             r enc b Hr Hg'), Hp.
  reflexivity.
Qed.

(** X6: the encoding string counts up to the case of its ASCII letters:
    two ASCII strings that match up to case give the same result, for
    every reader, accepted or not. *)
Theorem encoding_counts_up_to_case (r : Reader) (enc1 enc2 : string) :
  strings.isASCII enc1 = true ->
  strings.isASCII enc2 = true ->
  case_insensitive_match enc1 enc2 = true ->
  Parse r enc1 = Parse r enc2.
Proof.
  intros H1 H2 Hm. unfold case_insensitive_match in Hm.
  apply String.eqb_eq in Hm.
  assert (E : strings.ToUpper Map_unicode_ToUpper enc1 =
              strings.ToUpper Map_unicode_ToUpper enc2).
  { unfold strings.ToUpper. rewrite H1, H2.
    rewrite <- (map_upper_of_lower enc1), <- (map_upper_of_lower enc2).
    now rewrite Hm. }
  unfold smgo.Parse. now rewrite E.
Qed.

End ParseExtras.

Lemma boundary_fixer_decides_witness :
  exists fv file,
    Walk Visit samples.simple_func_ast
      (new_visitor
         (samples.fileset_of (list_byte_of_string samples.simple_func_src)))
      = Ret fv /\
    File_ fv = Some file /\
    smgo.Parse samples.keep_case samples.sample_ParseFile
      samples.lose_boundaries
      (samples.reader_of samples.simple_func_src) "utf-8" =
    Ret (None,
         Some (errors_Wrap (errors_New "offset not found")
                 "Error reading fixing boundaries")).
Proof.
  apply (@boundary_fixer_decides samples.keep_case samples.sample_ParseFile
           samples.lose_boundaries
           (samples.reader_of samples.simple_func_src) "utf-8"
           (list_byte_of_string samples.simple_func_src)
           (samples.fileset_of (list_byte_of_string samples.simple_func_src))
           samples.simple_func_ast).
  - reflexivity.
  - reflexivity.
  - reflexivity.
Defined.

Lemma encoding_counts_up_to_case_witness :
  samples.sample_Parse (samples.reader_of samples.simple_func_src) "Latin1" =
  samples.sample_Parse (samples.reader_of samples.simple_func_src) "lATIN1".
Proof.
  apply (@encoding_counts_up_to_case samples.keep_case
           samples.sample_ParseFile samples.keep_boundaries
           (samples.reader_of samples.simple_func_src) "Latin1" "lATIN1").
  - reflexivity.
  - reflexivity.
  - reflexivity.
Defined.

(* ================================================================== *)
(** ** Two calls *)



(* ================================================================== *)
(** ** The walk cannot panic *)



